(** * GSpot: chat room schema and administrator permission models

    A shallow embedding of
    - [backend/channels/chat/src/rooms/models.py] (the pydantic [Room] model),
    - [backend/users/backend/administrator/models.py] (the Django [Admin],
      [AdminPermissionMixin], [AdminManager] and [BlockReason] models),
    followed by the properties of the specification stated over it. *)

From Stdlib Require Import ZArith NArith Ascii String List Bool Lia.
From stdpp Require Import base decidable option list gmap strings.

Local Open Scope string_scope.
Local Open Scope list_scope.

(** ** Python values, exceptions and results *)

Module Py.

(** The Python values that reach the modelled code as arguments or
    keyword arguments. *)
Inductive PyVal : Type :=
| PyNone : PyVal
| PyBool (b : bool) : PyVal
| PyInt (z : Z) : PyVal
| PyStr (s : string) : PyVal.

#[export] Instance PyVal_eq_dec : EqDecision PyVal.
Proof. solve_decision. Defined.

(** [bool(v)]: the truth value Python's [if], [not], [and], [or] test. *)
Definition truthy (v : PyVal) : bool :=
  match v with
  | PyNone => false
  | PyBool b => b
  | PyInt z => negb (z =? 0)%Z
  | PyStr s => negb (String.eqb s "")
  end.

(** [v is True]: identity with the [True] singleton. *)
Definition is_True (v : option PyVal) : bool :=
  match v with
  | Some (PyBool true) => true
  | _ => false
  end.

(** Exceptions raised by the modelled code. *)
Inductive Exc : Type :=
| ValueError (msg : string)
| TypeError (msg : string)
| DatabaseError (msg : string)
| ConfigError (msg : string).

(** A call either returns a value or raises. *)
Inductive Res (A : Type) : Type :=
| Ok (a : A)
| Raise (e : Exc).
Arguments Ok {A} a.
Arguments Raise {A} e.

Definition is_Ok {A : Type} (r : Res A) : bool :=
  match r with Ok _ => true | Raise _ => false end.

(** [dict.setdefault(k, v)]: an existing entry is kept, whatever its value. *)
Definition setdefault (k : string) (v : PyVal) (d : gmap string PyVal)
  : gmap string PyVal :=
  match d !! k with
  | Some _ => d
  | None => <[k := v]> d
  end.

(** [str.isspace] on one character. Characters are code points
    U+0000..U+00FF; on that range Python's whitespace characters are
    U+0009..U+000D, U+001C..U+0020, U+0085 and U+00A0. *)
Definition isspace (c : ascii) : bool :=
  let n := N_of_ascii c in
  ((9 <=? n) && (n <=? 13) || (28 <=? n) && (n <=? 32)
   || (n =? 133) || (n =? 160))%N.

(** [str.lstrip()], [str.rstrip()] and [str.strip()] without argument. *)
Fixpoint lstrip (s : string) : string :=
  match s with
  | EmptyString => EmptyString
  | String c s' => if isspace c then lstrip s' else s
  end.

Fixpoint rstrip (s : string) : string :=
  match s with
  | EmptyString => EmptyString
  | String c s' =>
      match rstrip s' with
      | EmptyString => if isspace c then EmptyString else String c EmptyString
      | r => String c r
      end
  end.

Definition strip (s : string) : string := rstrip (lstrip s).

(** [bool(s)] for a string: non-empty. *)
Definition str_truthy (s : string) : bool :=
  match s with EmptyString => false | String _ _ => true end.

(** Every character of the string is whitespace (true for the empty
    string): the strings the specification calls "empty or whitespace
    only". *)
Fixpoint all_space (s : string) : bool :=
  match s with
  | EmptyString => true
  | String c s' => isspace c && all_space s'
  end.

End Py.

Import Py.

(** ** rooms/models.py *)

Module Rooms.

(** A [datetime]: its calendar fields, as the number of microseconds since
    the start of the proleptic calendar, and its UTC offset in
    microseconds when it is timezone-aware. A naive datetime has no
    offset. *)
Record datetime : Type := { wall : Z; utcoffset : option Z }.

(** [datetime.utcnow()]: the clock reading as a naive datetime. *)
Definition utcnow (clock : Z) : datetime :=
  {| wall := clock; utcoffset := None |}.

(** [a > b] on datetimes: naive values compare by their fields, aware
    values by the instant they denote, and a naive value does not compare
    with an aware one. *)
Definition datetime_gt (a b : datetime) : Res bool :=
  match utcoffset a, utcoffset b with
  | None, None => Ok (wall b <? wall a)%Z
  | Some oa, Some ob => Ok (wall b - ob <? wall a - oa)%Z
  | _, _ =>
      Raise (TypeError "can't compare offset-naive and offset-aware datetimes")
  end.

(** [Field(default=..., default_factory=..., alias=...)]: a default is
    either a value, stored when the call is evaluated, or a factory that
    is called, and may read the clock, each time a default is needed. *)
Record FieldInfo (A : Type) : Type := {
  default_value : option A;
  default_factory : option (Z -> A);
  alias : option string
}.
Arguments default_value {A} f.
Arguments default_factory {A} f.
Arguments alias {A} f.

(** The default pydantic supplies for a field that was not passed, at
    clock reading [clock]: the factory's result if there is a factory, the
    stored value otherwise. *)
Definition get_default {A : Type} (f : FieldInfo A) (clock : Z) : option A :=
  match default_factory f with
  | Some factory => Some (factory clock)
  | None => default_value f
  end.

(** The parameter names of a function, first parameter apart. *)
Record Signature : Type := { first_arg : string; other_args : list string }.

(** A function decorated with [@validator(field)]. *)
Record ValidatorDecl : Type := {
  validator_field : string;
  validator_signature : Signature
}.

(** Modelled from the spec: [utils.models.PydanticObjectId] is not part of
    the sources; the specification describes the field as an optional
    opaque identifier. *)
Definition PydanticObjectId : Type := string.

(** What the body of [class Room(BaseModel)] leaves behind when it has
    run: the declared fields and the decorated validators. *)
Record RoomNamespace : Type := {
  id : FieldInfo PydanticObjectId;
  created_at : FieldInfo datetime;
  validators : list ValidatorDecl
}.

(** The class body, run at clock reading [clock] (when the module is
    imported). [Field(default=datetime.utcnow())] calls [utcnow] there
    and stores the result; both validators are declared with the
    parameters [(self, v)]. *)
Definition Room_body (clock : Z) : RoomNamespace :=
  {| id := {| default_value := None; default_factory := None;
              alias := Some "_id" |};
     created_at := {| default_value := Some (utcnow clock);
                      default_factory := None;
                      alias := None |};
     validators :=
       [ {| validator_field := "room_name";
            validator_signature :=
              {| first_arg := "self"; other_args := ["v"] |} |};
         {| validator_field := "created_at";
            validator_signature :=
              {| first_arg := "self"; other_args := ["v"] |} |} ] |}.

(** pydantic's check of a validator when the class is created: a
    validator is called with the class, and a function whose first
    parameter is named [self] is refused. *)
Definition make_generic_validator (sig : Signature) : Res unit :=
  if String.eqb (first_arg sig) "self"
  then Raise (ConfigError
                "Invalid signature for validator: 'self' not permitted as first argument")
  else Ok tt.

Fixpoint check_validators (vs : list ValidatorDecl) : Res unit :=
  match vs with
  | [] => Ok tt
  | v :: vs' =>
      match make_generic_validator (validator_signature v) with
      | Ok _ => check_validators vs'
      | Raise e => Raise e
      end
  end.

(** The statement [class Room(BaseModel): ...] at clock reading [clock]:
    the body runs, then pydantic creates the class from what the body
    left, or raises. Only a class that was created can be instantiated. *)
Definition define_Room (clock : Z) : Res RoomNamespace :=
  let ns := Room_body clock in
  match check_validators (validators ns) with
  | Ok _ => Ok ns
  | Raise e => Raise e
  end.

(** The body of [validate_room_name], on the value [v] of the field. *)
Definition validate_room_name (v : string) : Res string :=
  if str_truthy (strip v)
  then Raise (ValueError "Room name mustn't be empty")
  else Ok v.

(** The body of [validate_created_at], on the value [v] of the field;
    [clock] is the clock reading of the call to [datetime.utcnow()] in the
    body. *)
Definition validate_created_at (clock : Z) (v : datetime) : Res datetime :=
  match datetime_gt v (utcnow clock) with
  | Raise e => Raise e
  | Ok true => Raise (ValueError "created_at can't be in the future")
  | Ok false => Ok v
  end.

End Rooms.

(** ** administrator/models.py *)

Module Administrator.

(** *** The stored data *)

(** Modelled from the spec: [base.models.BasePermission] and
    [base.models.BaseGroup] are not part of the sources; the specification
    gives a permission a codename and a group a name. Each row has its
    primary key. *)
Record Permission : Type := { perm_pk : N; codename : string }.
Record Group : Type := { group_pk : N; group_name : string }.

#[export] Instance Permission_eq_dec : EqDecision Permission.
Proof. solve_decision. Defined.
#[export] Instance Group_eq_dec : EqDecision Group.
Proof. solve_decision. Defined.

(** The two permission models: [AdminPermission] (table
    [admin_permission]) and [developer.models.DeveloperPermission]. *)
Inductive PermissionModel : Type := AdminPermission | DeveloperPermission.

#[export] Instance PermissionModel_eq_dec : EqDecision PermissionModel.
Proof. solve_decision. Defined.

(** The attribute values of an [Admin] instance. [is_superuser], [avatar]
    and [country] are declared by [Admin]; [username], [email], [phone]
    and [password] are the ones [_create_admin_user] sets; [is_active] is
    the one [has_perm] reads.
    Modelled from the spec: [base.models.BaseAbstractUser], which declares
    the last five, is not part of the sources; the specification lists
    username, email, phone, password hash and an is_active flag. *)
Record AdminFields : Type := {
  username : PyVal;
  email : PyVal;
  phone : PyVal;
  password : PyVal;
  is_active : PyVal;
  is_superuser : PyVal;
  avatar : PyVal;
  country : PyVal
}.

(** A saved [Admin]: a row of table [admin], with its primary key. The
    permission relations exist for saved instances only. *)
Record Admin : Type := { pk : N; fields : AdminFields }.

(** A snapshot of the relational store. A many-to-many field is its
    through table, a list of (source id, target id) rows. *)
Record DB : Type := {
  admin : list Admin;
  admin_permission : list Permission;
  admin_group : list Group;
  (** [AdminGroup.permission]: (admingroup id, adminpermission id) *)
  admin_group_permission : list (N * N);
  (** [Admin.groups]: (admin id, admingroup id) *)
  admin_groups : list (N * N);
  (** [Admin.user_permissions]: (admin id, adminpermission id) *)
  admin_user_permissions : list (N * N);
  developer_permission : list Permission;
  developer_group : list Group;
  (** [DeveloperGroup.permission]: (developergroup id, developerpermission id) *)
  developer_group_permission : list (N * N);
  (** [Admin.developer_groups]: (admin id, developergroup id) *)
  admin_developer_groups : list (N * N);
  (** [Admin.developer_permissions]: (admin id, developerpermission id) *)
  admin_developer_permissions : list (N * N)
}.

(** The tables a query on a permission model joins. *)
Definition table (m : PermissionModel) (db : DB) : list Permission :=
  match m with
  | AdminPermission => admin_permission db
  | DeveloperPermission => developer_permission db
  end.

Definition group_table (m : PermissionModel) (db : DB) : list Group :=
  match m with
  | AdminPermission => admin_group db
  | DeveloperPermission => developer_group db
  end.

Definition group_permission_through (m : PermissionModel) (db : DB)
  : list (N * N) :=
  match m with
  | AdminPermission => admin_group_permission db
  | DeveloperPermission => developer_group_permission db
  end.

Definition membership_through (m : PermissionModel) (db : DB)
  : list (N * N) :=
  match m with
  | AdminPermission => admin_groups db
  | DeveloperPermission => admin_developer_groups db
  end.

Definition direct_through (m : PermissionModel) (db : DB) : list (N * N) :=
  match m with
  | AdminPermission => admin_user_permissions db
  | DeveloperPermission => admin_developer_permissions db
  end.

(** A through table holds the row (a, b). *)
Definition linked (through : list (N * N)) (a b : N) : bool :=
  existsb (fun r => (fst r =? a)%N && (snd r =? b)%N) through.

(** *** Query sets *)

(** The keyword lookups the module passes to [filter]. *)
Inductive Lookup : Type :=
(** [codename=perm] *)
| codename_eq (perm : string)
(** [admin=self], the reverse of [Admin.user_permissions] and of
    [Admin.developer_permissions] (related query name [admin]) *)
| admin_eq (self : Admin)
(** [admingroup__admin=self] and [developergroup__admin=self]: through the
    group's permissions to the group, through [Admin.groups] (or
    [Admin.developer_groups]) to the admin *)
| group__admin_eq (self : Admin).

Definition matches (m : PermissionModel) (db : DB) (l : Lookup)
  (p : Permission) : bool :=
  match l with
  | codename_eq perm => String.eqb (codename p) perm
  | admin_eq self => linked (direct_through m db) (pk self) (perm_pk p)
  | group__admin_eq self =>
      existsb
        (fun g =>
           linked (group_permission_through m db) (group_pk g) (perm_pk p)
           && linked (membership_through m db) (pk self) (group_pk g))
        (group_table m db)
  end.

(** A query set is lazy: a model and a condition on its rows, evaluated
    against the store only when the set is executed. *)
Record QuerySet : Type := {
  model : PermissionModel;
  where_ : DB -> Permission -> bool
}.

(** [Model.objects] *)
Definition objects (m : PermissionModel) : QuerySet :=
  {| model := m; where_ := fun _ _ => true |}.

(** [qs.all()] *)
Definition all (q : QuerySet) : QuerySet := q.

(** [qs.filter(k1=v1, ..., kn=vn)]: the lookups of one call hold
    together. *)
Definition filter_ (q : QuerySet) (lookups : list Lookup) : QuerySet :=
  {| model := model q;
     where_ := fun db p =>
       where_ q db p && forallb (fun l => matches (model q) db l p) lookups |}.

(** [qs1 | qs2], on two query sets of one model. *)
Definition or_ (q1 q2 : QuerySet) : QuerySet :=
  {| model := model q1;
     where_ := fun db p => where_ q1 db p || where_ q2 db p |}.

(** The rows a query set selects when it is executed. *)
Definition rows (q : QuerySet) (db : DB) : list Permission :=
  List.filter (where_ q db) (table (model q) db).

(** Code that reads the store: its result and the queries it executed, in
    order, each named by the model queried. *)
Definition Query (A : Type) : Type := DB -> A * list PermissionModel.

Definition qret {A : Type} (a : A) : Query A := fun _ => (a, []).

Definition qbind {A B : Type} (c : Query A) (k : A -> Query B) : Query B :=
  fun db =>
    let '(a, log1) := c db in
    let '(b, log2) := k a db in
    (b, log1 ++ log2).

(** [qs.exists()] executes the query. *)
Definition exists_ (q : QuerySet) : Query bool :=
  fun db => (existsb (where_ q db) (table (model q) db), [model q]).

(** *** AdminPermissionMixin *)

(** [self.user_permissions] and [self.developer_permissions]: the related
    managers of the two direct many-to-many fields. *)
Definition user_permissions (self : Admin) : QuerySet :=
  filter_ (objects AdminPermission) [admin_eq self].

Definition developer_permissions (self : Admin) : QuerySet :=
  filter_ (objects DeveloperPermission) [admin_eq self].

Definition has_perm (self : Admin) (perm : string) : Query bool :=
  if truthy (is_active (fields self)) && truthy (is_superuser (fields self))
  then qret true
  else
    let user_perm :=
      or_ (filter_ (user_permissions self) [codename_eq perm])
          (filter_ (objects AdminPermission)
                   [group__admin_eq self; codename_eq perm]) in
    let dev_perm :=
      or_ (filter_ (developer_permissions self) [codename_eq perm])
          (filter_ (objects DeveloperPermission)
                   [group__admin_eq self; codename_eq perm]) in
    qbind (exists_ user_perm)
          (fun found => if found then qret true else exists_ dev_perm).

Definition get_all_permissions (self : Admin) : QuerySet :=
  or_ (all (user_permissions self))
      (filter_ (objects AdminPermission) [group__admin_eq self]).

(** The value [has_perm] returns on a store. *)
Definition has_perm_value (db : DB) (self : Admin) (perm : string) : bool :=
  fst (has_perm self perm db).

(** The queries [has_perm] executes on a store. *)
Definition has_perm_queries (db : DB) (self : Admin) (perm : string)
  : list PermissionModel :=
  snd (has_perm self perm db).

(** *** The grants, in the words of the specification *)

Inductive Taxonomy : Type := Standard | Developer.

Definition model_of (t : Taxonomy) : PermissionModel :=
  match t with
  | Standard => AdminPermission
  | Developer => DeveloperPermission
  end.

(** [p] is a permission of taxonomy [t] granted to the actor directly. *)
Definition direct_grant (db : DB) (t : Taxonomy) (actor : Admin)
  (p : Permission) : Prop :=
  p ∈ table (model_of t) db
  ∧ (pk actor, perm_pk p) ∈ direct_through (model_of t) db.

(** [p] is a permission of taxonomy [t] granted to a group the actor
    belongs to. *)
Definition group_grant (db : DB) (t : Taxonomy) (actor : Admin)
  (p : Permission) : Prop :=
  p ∈ table (model_of t) db
  ∧ ∃ g : Group,
      g ∈ group_table (model_of t) db
      ∧ (pk actor, group_pk g) ∈ membership_through (model_of t) db
      ∧ (group_pk g, perm_pk p) ∈ group_permission_through (model_of t) db.

(** The union of the direct and the group-derived grants of taxonomy [t]
    matching codename [P] is non-empty. *)
Definition grant_matching (db : DB) (t : Taxonomy) (actor : Admin)
  (P : string) : Prop :=
  ∃ p : Permission,
    codename p = P ∧ (direct_grant db t actor p ∨ group_grant db t actor p).

(** *** AdminManager *)

(** An [Admin] instance in memory, before or after [save]: its primary
    key ([None] as long as it has none) and its attribute values. *)
Record AdminInstance : Type := {
  instance_pk : PyVal;
  instance_fields : AdminFields
}.

(** [user.password = value] *)
Definition set_password (value : PyVal) (user : AdminFields) : AdminFields :=
  {| username := username user;
     email := email user;
     phone := phone user;
     password := value;
     is_active := is_active user;
     is_superuser := is_superuser user;
     avatar := avatar user;
     country := country user |}.

Definition assign_password (value : PyVal) (user : AdminInstance)
  : AdminInstance :=
  {| instance_pk := instance_pk user;
     instance_fields := set_password value (instance_fields user) |}.

(** What the manager needs of the constructor [Admin(...)] for the field
    [is_superuser], which [Admin] declares: the instance has the value
    that was passed for it. *)
Definition stores_is_superuser
  (Admin_init : PyVal -> PyVal -> PyVal -> gmap string PyVal
                -> Res AdminInstance) : Prop :=
  forall (username email phone : PyVal) (kwargs : gmap string PyVal)
         (user : AdminInstance) (v : PyVal),
    Admin_init username email phone kwargs = Ok user ->
    kwargs !! "is_superuser" = Some v ->
    is_superuser (instance_fields user) = v.

Section Manager.

(** The collaborators of the manager, which live outside the module:
    [UserManager.normalize_email], [Admin.normalize_username],
    [django.contrib.auth.hashers.make_password]; the constructor
    [Admin(username=..., email=..., phone=..., **extra_fields)], which
    Django derives from the fields of [Admin] and of
    [base.models.BaseAbstractUser] (not part of the sources) and which
    raises for a keyword it does not accept; and [Model.save], which
    writes the row and reports the primary key the instance has once it is
    saved, or raises. *)
Variable normalize_email : PyVal -> PyVal.
Variable normalize_username : PyVal -> PyVal.
Variable make_password : PyVal -> PyVal.
Variable Admin_init :
  PyVal -> PyVal -> PyVal -> gmap string PyVal -> Res AdminInstance.
Variable save : AdminInstance -> DB -> Res N * DB.

(** A manager call returns or raises, and leaves a store behind. *)
Definition _create_admin_user (username email phone password : PyVal)
  (extra_fields : gmap string PyVal) (db : DB) : Res Admin * DB :=
  if negb (truthy username)
  then (Raise (ValueError "The given username must be set"), db)
  else
    let email := normalize_email email in
    let username := normalize_username username in
    match Admin_init username email phone extra_fields with
    | Raise e => (Raise e, db)
    | Ok user =>
        let user := assign_password (make_password password) user in
        match save user db with
        | (Ok k, db') => (Ok {| pk := k; fields := instance_fields user |}, db')
        | (Raise e, db') => (Raise e, db')
        end
    end.

Definition create_superuser (username email password phone : PyVal)
  (extra_fields : gmap string PyVal) (db : DB) : Res Admin * DB :=
  let extra_fields := setdefault "is_superuser" (PyBool true) extra_fields in
  if negb (is_True (extra_fields !! "is_superuser"))
  then (Raise (ValueError "Superuser must have is_superuser=True."), db)
  else _create_admin_user username email phone password extra_fields db.

Definition create_user (username email password phone : PyVal)
  (extra_fields : gmap string PyVal) (db : DB) : Res Admin * DB :=
  let extra_fields := setdefault "is_superuser" (PyBool false) extra_fields in
  _create_admin_user username email phone password extra_fields db.

End Manager.

(** *** Collaborators to run the manager with *)

(** A constructor for the model whose keyword fields are the ones the
    sources and the specification name: the primary key as [pk] or [id],
    [is_active], [is_superuser] (declared with [default=False]), [avatar],
    and [country] or [country_id]. Other keywords are a [TypeError]. *)
Definition Admin_kwargs : gset string :=
  list_to_set ["pk"; "id"; "is_active"; "is_superuser"; "avatar";
               "country"; "country_id"].

Definition Admin_init_declared (username email phone : PyVal)
  (kwargs : gmap string PyVal) : Res AdminInstance :=
  if bool_decide (dom kwargs ⊆ Admin_kwargs)
  then Ok {| instance_pk :=
               match kwargs !! "pk" with
               | Some v => v
               | None => default PyNone (kwargs !! "id")
               end;
             instance_fields :=
               {| username := username;
                  email := email;
                  phone := phone;
                  password := PyStr "";
                  is_active := default (PyBool true) (kwargs !! "is_active");
                  is_superuser :=
                    default (PyBool false) (kwargs !! "is_superuser");
                  avatar := default PyNone (kwargs !! "avatar");
                  country :=
                    match kwargs !! "country" with
                    | Some v => v
                    | None => default PyNone (kwargs !! "country_id")
                    end |} |}
  else Raise (TypeError "Admin() got unexpected keyword arguments").

(** A store that keys the rows of table [admin] by natural numbers and
    accepts every row: an instance without primary key is appended under
    the next free key; an instance with a key replaces the row of that
    key, or is inserted under it. *)
Definition next_pk (db : DB) : N :=
  N.succ (fold_right N.max 0%N (map pk (admin db))).

Definition put_admin (k : N) (user : AdminFields) (db : DB) : DB :=
  {| admin := List.filter (fun a => negb (pk a =? k)%N) (admin db)
              ++ [ {| pk := k; fields := user |} ];
     admin_permission := admin_permission db;
     admin_group := admin_group db;
     admin_group_permission := admin_group_permission db;
     admin_groups := admin_groups db;
     admin_user_permissions := admin_user_permissions db;
     developer_permission := developer_permission db;
     developer_group := developer_group db;
     developer_group_permission := developer_group_permission db;
     admin_developer_groups := admin_developer_groups db;
     admin_developer_permissions := admin_developer_permissions db |}.

Definition insert_admin (user : AdminInstance) (db : DB) : Res N * DB :=
  match instance_pk user with
  | PyNone =>
      (Ok (next_pk db), put_admin (next_pk db) (instance_fields user) db)
  | PyInt z =>
      if (0 <=? z)%Z
      then (Ok (Z.to_N z), put_admin (Z.to_N z) (instance_fields user) db)
      else (Raise (DatabaseError "primary key out of range"), db)
  | _ => (Raise (ValueError "Field 'id' expected a number"), db)
  end.

Definition empty_db : DB :=
  {| admin := [];
     admin_permission := [];
     admin_group := [];
     admin_group_permission := [];
     admin_groups := [];
     admin_user_permissions := [];
     developer_permission := [];
     developer_group := [];
     developer_group_permission := [];
     admin_developer_groups := [];
     admin_developer_permissions := [] |}.

(** *** Sample data *)

(** An active administrator without the superuser flag, an active
    superuser, and a store in which the first belongs to a developer
    group holding the developer permission ["D"] and has no direct
    grant. *)
Definition staff : Admin :=
  {| pk := 1;
     fields := {| username := PyStr "staff"; email := PyStr "";
                  phone := PyNone; password := PyStr "";
                  is_active := PyBool true; is_superuser := PyBool false;
                  avatar := PyNone; country := PyNone |} |}.

Definition root : Admin :=
  {| pk := 2;
     fields := {| username := PyStr "root"; email := PyStr "";
                  phone := PyNone; password := PyStr "";
                  is_active := PyBool true; is_superuser := PyBool true;
                  avatar := PyNone; country := PyNone |} |}.

Definition sample_db : DB :=
  {| admin := [staff; root];
     admin_permission := [ {| perm_pk := 5; codename := "X" |} ];
     admin_group := [];
     admin_group_permission := [];
     admin_groups := [];
     admin_user_permissions := [];
     developer_permission := [ {| perm_pk := 7; codename := "D" |} ];
     developer_group := [ {| group_pk := 3; group_name := "devs" |} ];
     developer_group_permission := [ (3, 7)%N ];
     admin_developer_groups := [ (1, 3)%N ];
     admin_developer_permissions := [] |}.

(** A store in which the administrator [staff] holds the standard
    permission ["X"] directly and ["Y"] through the group [ops], the
    developer permission ["E"] directly and ["D"] through the developer
    group [devs]; nobody holds ["Z"]. *)
Definition office_db : DB :=
  {| admin := [staff; root];
     admin_permission := [ {| perm_pk := 5; codename := "X" |};
                           {| perm_pk := 6; codename := "Y" |};
                           {| perm_pk := 9; codename := "Z" |} ];
     admin_group := [ {| group_pk := 4; group_name := "ops" |} ];
     admin_group_permission := [ (4, 6)%N ];
     admin_groups := [ (1, 4)%N ];
     admin_user_permissions := [ (1, 5)%N ];
     developer_permission := [ {| perm_pk := 7; codename := "D" |};
                               {| perm_pk := 8; codename := "E" |} ];
     developer_group := [ {| group_pk := 3; group_name := "devs" |} ];
     developer_group_permission := [ (3, 7)%N ];
     admin_developer_groups := [ (1, 3)%N ];
     admin_developer_permissions := [ (1, 8)%N ] |}.

(** *** Admin.permissions_codename *)

(** [list(qs.values_list("codename", flat=True))]: executes the query and
    returns the codename of every row it selects. *)
Definition values_list_codename (q : QuerySet) : Query (list string) :=
  fun db => (map codename (rows q db), [model q]).

(** The property [Admin.permissions_codename]. *)
Definition permissions_codename (self : Admin) : Query (list string) :=
  qbind (values_list_codename (user_permissions self))
        (fun std =>
           qbind (values_list_codename (developer_permissions self))
                 (fun dev => qret (std ++ dev))).

(** *** Stores that grow *)

(** Every row of [db] is a row of [db']: permissions, groups, memberships
    and grants were added, none removed. *)
Definition db_included (db db' : DB) : Prop :=
  forall m : PermissionModel,
    table m db ⊆ table m db'
    /\ group_table m db ⊆ group_table m db'
    /\ group_permission_through m db ⊆ group_permission_through m db'
    /\ membership_through m db ⊆ membership_through m db'
    /\ direct_through m db ⊆ direct_through m db'.

(** *** BlockReason *)

Module BlockReason.

(** A validator returns the code of the [ValidationError] it raises, or
    [None] when the value passes. *)
Definition Validator : Type := string -> option string.

(** [MinLengthValidator(limit_value)]: raises when
    [len(value) < limit_value]. *)
Definition MinLengthValidator (limit_value : nat) : Validator :=
  fun value =>
    if (String.length value <? limit_value)%nat
    then Some "min_length" else None.

(** [MaxLengthValidator(limit_value)]: raises when
    [len(value) > limit_value]. *)
Definition MaxLengthValidator (limit_value : nat) : Validator :=
  fun value =>
    if (limit_value <? String.length value)%nat
    then Some "max_length" else None.

(** [models.CharField(max_length=..., validators=[...])] *)
Record CharField : Type := {
  max_length : nat;
  blank : bool;
  validators : list Validator
}.

Definition reason : CharField :=
  {| max_length := 255;
     blank := false;
     validators := [MinLengthValidator 3] |}.

(** The validators a [CharField] runs: the declared ones, then the
    [MaxLengthValidator] its [max_length] adds. *)
Definition field_validators (f : CharField) : list Validator :=
  validators f ++ [MaxLengthValidator (max_length f)].

(** [Field.run_validators]: nothing runs on an empty value; otherwise
    every validator runs and the errors are collected. *)
Definition run_validators (f : CharField) (value : string) : list string :=
  if String.eqb value "" then []
  else omap (fun v : Validator => v value) (field_validators f).

(** [Field.clean] on a string: the blank check, then the validators.
    Returns the cleaned value or the codes of the errors. *)
Definition clean (f : CharField) (value : string) : list string + string :=
  if negb (blank f) && String.eqb value "" then inl ["blank"]
  else
    match run_validators f value with
    | [] => inr value
    | errors => inl errors
    end.

End BlockReason.

End Administrator.

(** * Properties *)

(** ** Room validation *)

Section RoomProperties.
Import Rooms.
Local Open Scope Z_scope.

Lemma all_space_lstrip (s : string) : all_space (lstrip s) = all_space s.
Proof.
  induction s as [|c s IH]; simpl; [reflexivity|].
  destruct (isspace c) eqn:Hc; simpl.
  - exact IH.
  - rewrite Hc. reflexivity.
Qed.

Lemma str_truthy_rstrip (s : string) :
  str_truthy (rstrip s) = negb (all_space s).
Proof.
  induction s as [|c s IH]; simpl; [reflexivity|].
  destruct (rstrip s) as [|c' r]; simpl in IH.
  - apply (f_equal negb) in IH. rewrite negb_involutive in IH.
    rewrite <- IH, andb_true_r. destruct (isspace c); reflexivity.
  - apply (f_equal negb) in IH. rewrite negb_involutive in IH.
    rewrite <- IH, andb_false_r. reflexivity.
Qed.

(** [v.strip()] is truthy exactly when [v] has a character that is not
    whitespace. *)
Lemma str_truthy_strip (v : string) :
  str_truthy (strip v) = negb (all_space v).
Proof.
  unfold strip. rewrite str_truthy_rstrip, all_space_lstrip. reflexivity.
Qed.

(** The class statement raises whatever the clock reads: the first
    validator is refused for its parameter [self]. *)
Lemma define_Room_raises (clock : Z) :
  define_Room clock
  = Raise (ConfigError
             "Invalid signature for validator: 'self' not permitted as first argument").
Proof. reflexivity. Qed.

(** On a naive value the body of [validate_created_at] compares the
    fields with the clock reading. *)
Lemma validate_created_at_naive (clock w : Z) :
  validate_created_at clock {| wall := w; utcoffset := None |}
  = if clock <? w
    then Raise (ValueError "created_at can't be in the future")
    else Ok {| wall := w; utcoffset := None |}.
Proof.
  unfold validate_created_at, datetime_gt. simpl.
  destruct (clock <? w); reflexivity.
Qed.

(** On an aware value it raises, wherever the value lies. *)
Lemma validate_created_at_aware (clock w o : Z) :
  validate_created_at clock {| wall := w; utcoffset := Some o |}
  = Raise (TypeError "can't compare offset-naive and offset-aware datetimes").
Proof. reflexivity. Qed.

(** C1 (as the code behaves): the body of [validate_room_name] accepts
    exactly the names that are empty or whitespace only, and raises
    "Room name mustn't be empty" on every name with a visible character,
    such as the name "Test Room" of the model's own schema example; and
    the class statement itself raises [ConfigError], at every clock
    reading, because the validators are declared with [self]: no [Room]
    is constructed, and none is refused with a validation error. *)
Theorem C1_room_name_check_inverted :
  (forall v : string, is_Ok (validate_room_name v) = all_space v)
  /\ validate_room_name "" = Ok ""
  /\ validate_room_name "   " = Ok "   "
  /\ validate_room_name "Test Room"
     = Raise (ValueError "Room name mustn't be empty")
  /\ (forall clock : Z, is_Ok (define_Room clock) = false).
Proof.
  split; [|repeat split; intros; reflexivity].
  intros v. unfold validate_room_name.
  rewrite str_truthy_strip. destruct (all_space v); reflexivity.
Qed.

(** C5 (as the code behaves): on a naive [created_at] the body of
    [validate_created_at] raises exactly when the value is after the clock
    reading and returns the value otherwise; on a timezone-aware
    [created_at], such as the "2023-04-22T12:00:00.000Z" of the model's
    own schema example, it raises [TypeError] even when the value is in the
    past; and the class statement raises [ConfigError] at every clock
    reading, so the check never runs as a validator of [Room]. *)
Theorem C5_created_at_not_in_future :
  (forall clock w : Z,
     validate_created_at clock {| wall := w; utcoffset := None |}
     = if clock <? w
       then Raise (ValueError "created_at can't be in the future")
       else Ok {| wall := w; utcoffset := None |})
  /\ (forall clock w o : Z,
        validate_created_at clock {| wall := w; utcoffset := Some o |}
        = Raise (TypeError
                   "can't compare offset-naive and offset-aware datetimes"))
  /\ validate_created_at 200 {| wall := 100; utcoffset := Some 0 |}
     = Raise (TypeError
                "can't compare offset-naive and offset-aware datetimes")
  /\ (forall clock : Z, is_Ok (define_Room clock) = false).
Proof.
  split; [exact validate_created_at_naive|].
  split; [exact validate_created_at_aware|].
  split; [reflexivity|]. intros clock. reflexivity.
Qed.


(** A field declared with [default_factory=datetime.utcnow] would take the
    clock reading of each construction instead. *)
Example default_factory_reads_the_clock (now : Z) :
  get_default {| default_value := None; default_factory := Some utcnow;
                 alias := None |} now
  = Some (utcnow now).
Proof. reflexivity. Qed.

End RoomProperties.

(** ** Permission resolution *)

Section PermissionProperties.
Import Administrator.

Lemma linked_elem_of (through : list (N * N)) (a b : N) :
  linked through a b = true <-> (a, b) ∈ through.
Proof.
  unfold linked. rewrite existsb_exists. split.
  - intros [[x y] [Hin Heq]]. simpl in Heq.
    apply andb_true_iff in Heq as [Hx Hy].
    apply N.eqb_eq in Hx, Hy. subst. apply list_elem_of_In. exact Hin.
  - intros Hin. exists (a, b). split; [apply list_elem_of_In; exact Hin|].
    simpl. rewrite !N.eqb_refl. reflexivity.
Qed.

Lemma existsb_elem_of {A : Type} (f : A -> bool) (l : list A) :
  existsb f l = true <-> exists x : A, x ∈ l /\ f x = true.
Proof.
  rewrite existsb_exists. split; intros [x [Hin Hf]]; exists x;
    (split; [apply list_elem_of_In; exact Hin | exact Hf]).
Qed.

(** The lookup [admin=self] selects the direct grants. *)
Lemma matches_admin_eq (db : DB) (t : Taxonomy) (self : Admin)
  (p : Permission) :
  p ∈ table (model_of t) db ->
  matches (model_of t) db (admin_eq self) p = true
  <-> direct_grant db t self p.
Proof.
  intros Hp. simpl. rewrite linked_elem_of. unfold direct_grant. tauto.
Qed.

(** The lookup through the group relation selects the group-derived
    grants. *)
Lemma matches_group__admin_eq (db : DB) (t : Taxonomy) (self : Admin)
  (p : Permission) :
  p ∈ table (model_of t) db ->
  matches (model_of t) db (group__admin_eq self) p = true
  <-> group_grant db t self p.
Proof.
  intros Hp. simpl. rewrite existsb_elem_of. unfold group_grant. split.
  - intros [g [Hg Hl]]. apply andb_true_iff in Hl as [H1 H2].
    apply linked_elem_of in H1, H2. split; [exact Hp|]. exists g. auto.
  - intros [_ [g [Hg [Hm Hgp]]]]. exists g. split; [exact Hg|].
    apply andb_true_iff. split; apply linked_elem_of; assumption.
Qed.

(** The query [has_perm] builds for one taxonomy finds a row exactly when
    the actor has a direct or group-derived grant matching the codename. *)
Lemma grant_query_exists (db : DB) (t : Taxonomy) (self : Admin)
  (P : string) :
  existsb
    (where_
       (or_ (filter_ (filter_ (objects (model_of t)) [admin_eq self])
                     [codename_eq P])
            (filter_ (objects (model_of t))
                     [group__admin_eq self; codename_eq P])) db)
    (table (model_of t) db) = true
  <-> grant_matching db t self P.
Proof.
  rewrite existsb_elem_of. unfold grant_matching.
  split.
  - intros [p [Hp Hw]]. exists p.
    cbn [where_ or_ filter_ objects model forallb] in Hw.
    rewrite !andb_true_r, !andb_true_l in Hw.
    apply orb_true_iff in Hw as [Hw|Hw];
      apply andb_true_iff in Hw as [H1 H2].
    + apply String.eqb_eq in H2. split; [exact H2|]. left.
      apply matches_admin_eq; assumption.
    + apply String.eqb_eq in H2. split; [exact H2|]. right.
      apply matches_group__admin_eq; assumption.
  - intros [p [Hc Hg]].
    assert (Hp : p ∈ table (model_of t) db).
    { destruct Hg as [[Hp _]|[Hp _]]; exact Hp. }
    exists p. split; [exact Hp|].
    cbn [where_ or_ filter_ objects model forallb].
    rewrite !andb_true_r, !andb_true_l.
    apply orb_true_iff. destruct Hg as [Hd|Hg]; [left|right];
      apply andb_true_iff; split.
    + apply matches_admin_eq; assumption.
    + apply String.eqb_eq. exact Hc.
    + apply matches_group__admin_eq; assumption.
    + apply String.eqb_eq. exact Hc.
Qed.

(** Past the superuser test, [has_perm] is the disjunction of the two
    [exists()] calls. *)
Lemma has_perm_value_unfold (db : DB) (self : Admin) (P : string) :
  truthy (is_active (fields self)) && truthy (is_superuser (fields self))
  = false ->
  has_perm_value db self P = true
  <-> grant_matching db Standard self P \/ grant_matching db Developer self P.
Proof.
  intros Hns. unfold has_perm_value, has_perm. rewrite Hns.
  unfold qbind, exists_, qret, user_permissions, developer_permissions.
  rewrite <- (grant_query_exists db Standard self P).
  rewrite <- (grant_query_exists db Developer self P).
  cbn [model_of model or_ filter_ objects].
  destruct (existsb _ (table AdminPermission db)) eqn:E1; simpl.
  - tauto.
  - split; [intros H; right; exact H | intros [H|H]; [discriminate|exact H]].
Qed.

(** C2: for an actor that is not (active and superuser), [has_perm]
    returns true exactly when the actor has a direct or group-derived
    grant matching the codename in the standard taxonomy or in the
    developer taxonomy; without any such grant it returns false. *)
Theorem C2_has_perm_iff_grant (db : DB) (actor : Admin) (P : string) :
  truthy (is_active (fields actor)) && truthy (is_superuser (fields actor))
  = false ->
  (has_perm_value db actor P = true
   <-> grant_matching db Standard actor P
       \/ grant_matching db Developer actor P)
  /\ (~ grant_matching db Standard actor P ->
      ~ grant_matching db Developer actor P ->
      has_perm_value db actor P = false).
Proof.
  intros Hns. pose proof (has_perm_value_unfold db actor P Hns) as Hiff.
  split; [exact Hiff|].
  intros Hs Hd. destruct (has_perm_value db actor P) eqn:E; [|reflexivity].
  exfalso. destruct (proj1 Hiff eq_refl); contradiction.
Qed.

(** C3: for an active superuser [has_perm] returns true for every
    codename on every store, and executes no query. *)
Theorem C3_superuser_bypass (db : DB) (actor : Admin) (P : string) :
  is_active (fields actor) = PyBool true ->
  is_superuser (fields actor) = PyBool true ->
  has_perm_value db actor P = true
  /\ has_perm_queries db actor P = [].
Proof.
  intros Ha Hs. unfold has_perm_value, has_perm_queries, has_perm.
  rewrite Ha, Hs. simpl. split; reflexivity.
Qed.

(** C4: an actor that is not (active and superuser) and belongs to a
    developer group holding a developer permission with codename [D] has
    permission [D]; nothing is assumed about direct grants. *)
Theorem C4_developer_group_grant
  (db : DB) (actor : Admin) (g : Group) (p : Permission) :
  truthy (is_active (fields actor)) && truthy (is_superuser (fields actor))
  = false ->
  g ∈ developer_group db ->
  (pk actor, group_pk g) ∈ admin_developer_groups db ->
  p ∈ developer_permission db ->
  (group_pk g, perm_pk p) ∈ developer_group_permission db ->
  has_perm_value db actor (codename p) = true.
Proof.
  intros Hns Hg Hm Hp Hgp. apply has_perm_value_unfold; [exact Hns|].
  right. exists p. split; [reflexivity|]. right.
  split; [exact Hp|]. exists g. auto.
Qed.

(** C6: [get_all_permissions] is a query on the standard permission
    model; the rows it selects are exactly the actor's direct standard
    grants and the standard grants of the actor's groups; and they do not
    depend on the developer tables. *)
Theorem C6_get_all_permissions_standard_only (db : DB) (actor : Admin) :
  model (get_all_permissions actor) = AdminPermission
  /\ (forall p : Permission,
        p ∈ rows (get_all_permissions actor) db
        <-> direct_grant db Standard actor p
            \/ group_grant db Standard actor p)
  /\ (forall (dp : list Permission) (dg : list Group)
             (dgp adg adp : list (N * N)),
        rows (get_all_permissions actor)
          {| admin := admin db;
             admin_permission := admin_permission db;
             admin_group := admin_group db;
             admin_group_permission := admin_group_permission db;
             admin_groups := admin_groups db;
             admin_user_permissions := admin_user_permissions db;
             developer_permission := dp;
             developer_group := dg;
             developer_group_permission := dgp;
             admin_developer_groups := adg;
             admin_developer_permissions := adp |}
        = rows (get_all_permissions actor) db).
Proof.
  split; [reflexivity|]. split; [|intros; reflexivity].
  intros p. unfold rows. rewrite list_elem_of_In, filter_In.
  rewrite <- list_elem_of_In.
  cbn [get_all_permissions all user_permissions where_ or_ filter_ objects
       model forallb].
  rewrite !andb_true_r, !andb_true_l, orb_true_iff.
  split.
  - intros [Hp [H|H]].
    + left. apply (matches_admin_eq db Standard); assumption.
    + right. apply (matches_group__admin_eq db Standard); assumption.
  - intros [H|H].
    + split; [apply H|]. left.
      apply (matches_admin_eq db Standard); [apply H | exact H].
    + split; [apply H|]. right.
      apply (matches_group__admin_eq db Standard); [apply H | exact H].
Qed.

(** Runs of [has_perm] on the sample store: the developer grant is found
    by the second query; a codename that is in a table but not granted is
    refused after both queries; a direct standard grant is found by the
    first query, and the second is not executed. *)
Example has_perm_staff_D :
  has_perm staff "D" sample_db = (true, [AdminPermission; DeveloperPermission]).
Proof. reflexivity. Qed.

Example has_perm_staff_X :
  has_perm staff "X" sample_db = (false, [AdminPermission; DeveloperPermission]).
Proof. reflexivity. Qed.

Example has_perm_direct_grant_short_circuits :
  has_perm staff "X"
    {| admin := [staff];
       admin_permission := [ {| perm_pk := 5; codename := "X" |} ];
       admin_group := [];
       admin_group_permission := [];
       admin_groups := [];
       admin_user_permissions := [ (1, 5)%N ];
       developer_permission := [];
       developer_group := [];
       developer_group_permission := [];
       admin_developer_groups := [];
       admin_developer_permissions := [] |}
  = (true, [AdminPermission]).
Proof. reflexivity. Qed.

Lemma C2_has_perm_iff_grant_witness :
  (has_perm_value sample_db staff "D" = true
   <-> grant_matching sample_db Standard staff "D"
       \/ grant_matching sample_db Developer staff "D")
  /\ (~ grant_matching sample_db Standard staff "D" ->
      ~ grant_matching sample_db Developer staff "D" ->
      has_perm_value sample_db staff "D" = false).
Proof.
  apply (C2_has_perm_iff_grant sample_db staff "D"). reflexivity.
Defined.

Lemma C3_superuser_bypass_witness :
  has_perm_value sample_db root "no_such_codename" = true
  /\ has_perm_queries sample_db root "no_such_codename" = [].
Proof.
  apply (C3_superuser_bypass sample_db root "no_such_codename");
    reflexivity.
Defined.

Lemma C4_developer_group_grant_witness :
  has_perm_value sample_db staff "D" = true.
Proof.
  apply (C4_developer_group_grant sample_db staff
           {| group_pk := 3; group_name := "devs" |}
           {| perm_pk := 7; codename := "D" |});
    [reflexivity | apply list_elem_of_here ..].
Defined.

End PermissionProperties.

(** ** User provisioning *)

Section ManagerProperties.
Import Administrator.

Context (normalize_email normalize_username make_password : PyVal -> PyVal).
Context (Admin_init : PyVal -> PyVal -> PyVal -> gmap string PyVal
                      -> Res AdminInstance).
Context (save : AdminInstance -> DB -> Res N * DB).

(** [setdefault] leaves a key that is present alone and fills a key that
    is absent. *)
Lemma setdefault_present (k : string) (v w : PyVal)
  (d : gmap string PyVal) :
  d !! k = Some w -> setdefault k v d = d.
Proof. intros H. unfold setdefault. rewrite H. reflexivity. Qed.

Lemma setdefault_absent (k : string) (v : PyVal) (d : gmap string PyVal) :
  d !! k = None -> setdefault k v d = <[k := v]> d.
Proof. intros H. unfold setdefault. rewrite H. reflexivity. Qed.

Lemma is_True_Some (o : option PyVal) :
  is_True o = true <-> o = Some (PyBool true).
Proof.
  split; [|intros ->; reflexivity].
  destruct o as [[| [|] | |]|]; simpl; congruence.
Qed.

(** A falsy username stops [_create_admin_user] before anything else
    happens. *)
Lemma create_admin_user_falsy_username
  (username email phone password : PyVal)
  (extra_fields : gmap string PyVal) (db : DB) :
  truthy username = false ->
  _create_admin_user normalize_email normalize_username make_password
    Admin_init save username email phone password extra_fields db
  = (Raise (ValueError "The given username must be set"), db).
Proof. intros H. unfold _create_admin_user. rewrite H. reflexivity. Qed.

(** What a returning call of [_create_admin_user] did. *)
Lemma create_admin_user_Ok_inv
  (username email phone password : PyVal)
  (extra_fields : gmap string PyVal) (db db' : DB) (user : Admin) :
  _create_admin_user normalize_email normalize_username make_password
    Admin_init save username email phone password extra_fields db
  = (Ok user, db') ->
  truthy username = true
  /\ exists inst : AdminInstance,
       Admin_init (normalize_username username) (normalize_email email)
         phone extra_fields = Ok inst
       /\ save (assign_password (make_password password) inst) db
          = (Ok (pk user), db')
       /\ fields user
          = set_password (make_password password) (instance_fields inst).
Proof.
  unfold _create_admin_user.
  destruct (truthy username); simpl; [|discriminate].
  destruct (Admin_init (normalize_username username) (normalize_email email)
              phone extra_fields) as [inst|e] eqn:Hinit; [|discriminate].
  destruct (save (assign_password (make_password password) inst) db)
    as [[k|e] db''] eqn:Hs; [|discriminate].
  intros [= <- <-]. split; [reflexivity|]. exists inst. auto.
Qed.

(** The instance [_create_admin_user] returns has the [is_superuser] the
    keyword arguments carry. *)
Lemma create_admin_user_is_superuser
  (username email phone password v : PyVal)
  (extra_fields : gmap string PyVal) (db db' : DB) (user : Admin) :
  stores_is_superuser Admin_init ->
  extra_fields !! "is_superuser" = Some v ->
  _create_admin_user normalize_email normalize_username make_password
    Admin_init save username email phone password extra_fields db
  = (Ok user, db') ->
  is_superuser (fields user) = v.
Proof.
  intros Hctor Hv H. apply create_admin_user_Ok_inv in H.
  destruct H as (_ & inst & Hinit & _ & Hf).
  rewrite Hf. simpl. exact (Hctor _ _ _ _ _ _ Hinit Hv).
Qed.

(** C7: [create_user] and [create_superuser] called with a falsy username
    (the empty string, [None], ...) raise [ValueError] and leave the
    store as it was: no row is written. *)
Theorem C7_empty_username_rejected
  (username email password phone : PyVal)
  (extra_fields : gmap string PyVal) (db : DB) :
  truthy username = false ->
  create_user normalize_email normalize_username make_password
    Admin_init save username email password phone extra_fields db
  = (Raise (ValueError "The given username must be set"), db)
  /\ exists m : string,
       create_superuser normalize_email normalize_username make_password
         Admin_init save username email password phone extra_fields db
       = (Raise (ValueError m), db).
Proof.
  intros H. split.
  - unfold create_user. apply create_admin_user_falsy_username. exact H.
  - unfold create_superuser.
    destruct (negb (is_True _)).
    + eexists. reflexivity.
    + eexists. apply create_admin_user_falsy_username. exact H.
Qed.

(** C8 (amended): a call of [create_superuser] whose keyword arguments
    set [is_superuser] to anything but [True] raises [ValueError] and
    writes nothing; a call that omits the flag proceeds as if it had
    passed [is_superuser=True]; and the instance any successful call
    returns has [is_superuser = True], the constructor giving the
    instance the value passed for that field. *)
Theorem C8_create_superuser_flag
  (username email password phone v : PyVal)
  (extra_fields : gmap string PyVal) (db db' : DB) (user : Admin) :
  (extra_fields !! "is_superuser" = Some v ->
   v <> PyBool true ->
   create_superuser normalize_email normalize_username make_password
     Admin_init save username email password phone extra_fields db
   = (Raise (ValueError "Superuser must have is_superuser=True."), db))
  /\ (extra_fields !! "is_superuser" = None ->
      create_superuser normalize_email normalize_username make_password
        Admin_init save username email password phone extra_fields db
      = create_superuser normalize_email normalize_username make_password
          Admin_init save username email password phone
          (<["is_superuser" := PyBool true]> extra_fields) db)
  /\ (stores_is_superuser Admin_init ->
      create_superuser normalize_email normalize_username make_password
        Admin_init save username email password phone extra_fields db
      = (Ok user, db') ->
      is_superuser (fields user) = PyBool true).
Proof.
  split; [|split].
  - intros Hv Hne. unfold create_superuser.
    rewrite (setdefault_present _ _ v) by exact Hv. rewrite Hv.
    destruct v as [| [|] | |]; simpl; try reflexivity. congruence.
  - intros Hnone. unfold create_superuser.
    rewrite (setdefault_absent _ _ _ Hnone).
    rewrite (setdefault_present _ _ (PyBool true))
      by apply lookup_insert_eq.
    reflexivity.
  - intros Hctor. unfold create_superuser.
    destruct (is_True (setdefault "is_superuser" (PyBool true) extra_fields
                       !! "is_superuser")) eqn:E; simpl; [|discriminate].
    apply is_True_Some in E.
    apply create_admin_user_is_superuser; assumption.
Qed.

End ManagerProperties.

Section ManagerRuns.
Import Administrator.

(** The constructor over the declared fields gives the instance the
    [is_superuser] that was passed. *)
Lemma Admin_init_declared_stores_is_superuser :
  stores_is_superuser Admin_init_declared.
Proof.
  intros u e p kw inst v. unfold Admin_init_declared.
  case_bool_decide; [|discriminate].
  intros [= <-] Hv. simpl. rewrite Hv. reflexivity.
Qed.

Lemma C7_empty_username_rejected_witness :
  create_user (fun v => v) (fun v => v) (fun v => v) Admin_init_declared
    insert_admin (PyStr "") PyNone PyNone PyNone ∅ empty_db
  = (Raise (ValueError "The given username must be set"), empty_db)
  /\ exists m : string,
       create_superuser (fun v => v) (fun v => v) (fun v => v)
         Admin_init_declared insert_admin
         (PyStr "") PyNone PyNone PyNone ∅ empty_db
       = (Raise (ValueError m), empty_db).
Proof.
  apply (C7_empty_username_rejected (fun v => v) (fun v => v) (fun v => v)
           Admin_init_declared insert_admin (PyStr "") PyNone PyNone PyNone
           ∅ empty_db).
  reflexivity.
Defined.

(** C8 (as stated) fails: [create_superuser("root")], a call that does not
    set the superuser flag at all, returns the new superuser. *)
Lemma C8_flag_omitted_counterexample :
  (∅ : gmap string PyVal) !! "is_superuser" <> Some (PyBool true)
  /\ fst (create_superuser (fun v => v) (fun v => v) (fun v => v)
            Admin_init_declared insert_admin
            (PyStr "root") PyNone PyNone PyNone ∅ empty_db)
     = Ok {| pk := 1;
             fields := {| username := PyStr "root"; email := PyNone;
                          phone := PyNone; password := PyNone;
                          is_active := PyBool true;
                          is_superuser := PyBool true;
                          avatar := PyNone; country := PyNone |} |}.
Proof.
  split; [rewrite lookup_empty; discriminate|].
  vm_compute. reflexivity.
Qed.

Lemma C8_create_superuser_flag_witness :
  create_superuser (fun v => v) (fun v => v) (fun v => v)
    Admin_init_declared insert_admin
    (PyStr "root") PyNone PyNone PyNone
    {[ "is_superuser" := PyBool false ]} empty_db
  = (Raise (ValueError "Superuser must have is_superuser=True."), empty_db)
  /\ create_superuser (fun v => v) (fun v => v) (fun v => v)
       Admin_init_declared insert_admin
       (PyStr "root") PyNone PyNone PyNone ∅ empty_db
     = create_superuser (fun v => v) (fun v => v) (fun v => v)
         Admin_init_declared insert_admin
         (PyStr "root") PyNone PyNone PyNone
         (<["is_superuser" := PyBool true]> ∅) empty_db
  /\ exists (user : Admin) (db' : DB),
       create_superuser (fun v => v) (fun v => v) (fun v => v)
         Admin_init_declared insert_admin
         (PyStr "root") PyNone PyNone PyNone
         {[ "pk" := PyInt 7 ]} empty_db
       = (Ok user, db')
       /\ pk user = 7%N
       /\ is_superuser (fields user) = PyBool true.
Proof.
  split; [|split].
  - apply (C8_create_superuser_flag (fun v => v) (fun v => v) (fun v => v)
             Admin_init_declared insert_admin
             (PyStr "root") PyNone PyNone PyNone (PyBool false)
             {[ "is_superuser" := PyBool false ]} empty_db empty_db root).
    + apply lookup_singleton_eq.
    + discriminate.
  - apply (C8_create_superuser_flag (fun v => v) (fun v => v) (fun v => v)
             Admin_init_declared insert_admin
             (PyStr "root") PyNone PyNone PyNone PyNone
             ∅ empty_db empty_db root).
    apply lookup_empty.
  - pose (f := {| username := PyStr "root"; email := PyNone;
                  phone := PyNone; password := PyNone;
                  is_active := PyBool true;
                  is_superuser := PyBool true;
                  avatar := PyNone; country := PyNone |}).
    exists {| pk := 7; fields := f |}, (put_admin 7 f empty_db).
    assert (Hrun : create_superuser (fun v => v) (fun v => v) (fun v => v)
                     Admin_init_declared insert_admin
                     (PyStr "root") PyNone PyNone PyNone
                     {[ "pk" := PyInt 7 ]} empty_db
                   = (Ok {| pk := 7; fields := f |}, put_admin 7 f empty_db)).
    { vm_compute. reflexivity. }
    split; [exact Hrun|]. split; [reflexivity|].
    exact (proj2 (proj2
             (C8_create_superuser_flag (fun v => v) (fun v => v)
                (fun v => v) Admin_init_declared insert_admin
                (PyStr "root") PyNone PyNone PyNone PyNone
                {[ "pk" := PyInt 7 ]} empty_db
                (put_admin 7 f empty_db) {| pk := 7; fields := f |}))
             Admin_init_declared_stores_is_superuser Hrun).
Defined.

End ManagerRuns.

(** ** BlockReason *)

Section BlockReasonProperties.
Import Administrator.BlockReason.

(** C9: on [BlockReason.reason], a string shorter than 3 characters fails
    validation, and a string of exactly 3 characters passes the length
    validators and is returned as the cleaned value. *)
Theorem C9_reason_min_length (value : string) :
  ((String.length value < 3)%nat ->
     exists errors : list string, clean reason value = inl errors)
  /\ ((String.length value = 3)%nat ->
        MinLengthValidator 3 value = None
        /\ clean reason value = inr value).
Proof.
  split.
  - intros Hlen. destruct value as [|a [|b [|c rest]]]; simpl in Hlen.
    + eexists. reflexivity.
    + eexists. reflexivity.
    + eexists. reflexivity.
    + lia.
  - intros Hlen.
    destruct value as [|a [|b [|c [|d rest]]]]; simpl in Hlen; try lia.
    split; reflexivity.
Qed.

Lemma C9_reason_min_length_witness :
  (exists errors : list string, clean reason "ok" = inl errors)
  /\ (MinLengthValidator 3 "bad" = None /\ clean reason "bad" = inr "bad").
Proof.
  split.
  - apply (C9_reason_min_length "ok"). simpl. lia.
  - apply (C9_reason_min_length "bad"). reflexivity.
Defined.

(** The two strings the specification names. *)
Example reason_ok_rejected : clean reason "ok" = inl ["min_length"].
Proof. reflexivity. Qed.

Example reason_bad_accepted : clean reason "bad" = inr "bad".
Proof. reflexivity. Qed.

End BlockReasonProperties.

(** * Further properties of the code *)

(** ** The created_at check over time *)

Section RoomClock.
Import Rooms.
Local Open Scope Z_scope.

(** X3: the clock only moves a [created_at] further into the past: a
    value the body of [validate_created_at] returns at one clock reading
    it returns, unchanged, at every later one. *)
Theorem X3_validate_created_at_later_clock
  (clock clock' : Z) (v w : datetime) :
  validate_created_at clock v = Ok w ->
  clock <= clock' ->
  w = v /\ validate_created_at clock' v = Ok v.
Proof.
  destruct v as [vw [o|]].
  - rewrite validate_created_at_aware. discriminate.
  - rewrite !validate_created_at_naive.
    destruct (clock <? vw) eqn:E; [discriminate|].
    intros [= <-] Hle. apply Z.ltb_ge in E.
    assert (E' : (clock' <? vw) = false) by (apply Z.ltb_ge; lia).
    rewrite E'. split; reflexivity.
Qed.

Lemma X3_validate_created_at_later_clock_witness :
  {| wall := 150; utcoffset := None |} = {| wall := 150; utcoffset := None |}
  /\ validate_created_at 900 {| wall := 150; utcoffset := None |}
     = Ok {| wall := 150; utcoffset := None |}.
Proof.
  apply (X3_validate_created_at_later_clock 200 900);
    [reflexivity | lia].
Defined.

End RoomClock.

(** ** Permission checks, listings and growing stores *)

Section PermissionListings.
Import Administrator.

(** Whatever the flags of the actor, a matching grant is enough. *)
Lemma has_perm_value_of_grant (db : DB) (self : Admin) (P : string) :
  grant_matching db Standard self P \/ grant_matching db Developer self P ->
  has_perm_value db self P = true.
Proof.
  intros Hg.
  destruct (truthy (is_active (fields self))
            && truthy (is_superuser (fields self))) eqn:Hb.
  - unfold has_perm_value, has_perm. rewrite Hb. reflexivity.
  - apply has_perm_value_unfold; assumption.
Qed.

(** The rows [get_all_permissions] selects. *)
Lemma elem_of_get_all_permissions (db : DB) (self : Admin) (p : Permission) :
  p ∈ rows (get_all_permissions self) db
  <-> direct_grant db Standard self p \/ group_grant db Standard self p.
Proof.
  unfold rows. rewrite list_elem_of_In, filter_In, <- list_elem_of_In.
  cbn [get_all_permissions all user_permissions where_ or_ filter_ objects
       model forallb].
  rewrite !andb_true_r, !andb_true_l, orb_true_iff.
  split.
  - intros [Hp [H|H]]; [left|right].
    + apply (matches_admin_eq db Standard); assumption.
    + apply (matches_group__admin_eq db Standard); assumption.
  - intros [H|H]; (split; [apply H|]); [left|right].
    + apply (matches_admin_eq db Standard); [apply H | exact H].
    + apply (matches_group__admin_eq db Standard); [apply H | exact H].
Qed.

(** The rows the related manager of a direct many-to-many field selects. *)
Lemma elem_of_direct_rows (db : DB) (t : Taxonomy) (self : Admin)
  (p : Permission) :
  p ∈ rows (filter_ (objects (model_of t)) [admin_eq self]) db
  <-> direct_grant db t self p.
Proof.
  unfold rows. rewrite list_elem_of_In, filter_In, <- list_elem_of_In.
  cbn [where_ filter_ objects model forallb].
  rewrite andb_true_r, andb_true_l.
  split.
  - intros [Hp H]. apply matches_admin_eq; assumption.
  - intros H. split; [apply H|]. apply matches_admin_eq; [apply H | exact H].
Qed.

Lemma grant_matching_included (db db' : DB) (t : Taxonomy) (self : Admin)
  (P : string) :
  db_included db db' ->
  grant_matching db t self P -> grant_matching db' t self P.
Proof.
  intros Hinc [p [Hc Hg]]. destruct (Hinc (model_of t)) as (Ht & Hgt & Hgp & Hm & Hd).
  exists p. split; [exact Hc|]. destruct Hg as [[Hp Hl]|[Hp [g [Hg [Hmem Hgr]]]]].
  - left. split; [apply Ht, Hp | apply Hd, Hl].
  - right. split; [apply Ht, Hp|]. exists g.
    split; [apply Hgt, Hg|]. split; [apply Hm, Hmem | apply Hgp, Hgr].
Qed.

(** X5: past the superuser test, [has_perm] always queries the standard
    permissions, and queries the developer permissions only when no
    standard grant matched: [or] short-circuits. *)
Theorem X5_has_perm_short_circuit (db : DB) (actor : Admin) (P : string) :
  truthy (is_active (fields actor)) && truthy (is_superuser (fields actor))
  = false ->
  (grant_matching db Standard actor P ->
   has_perm actor P db = (true, [AdminPermission]))
  /\ (~ grant_matching db Standard actor P ->
      has_perm_queries db actor P = [AdminPermission; DeveloperPermission]).
Proof.
  intros Hns. unfold has_perm_queries, has_perm. rewrite Hns.
  unfold qbind, exists_, qret, user_permissions, developer_permissions.
  pose proof (grant_query_exists db Standard actor P) as Hq.
  cbn [model_of model or_ filter_ objects] in *.
  destruct (existsb _ (table AdminPermission db)) eqn:E1; simpl.
  - split; [reflexivity|]. intros Hno. exfalso. apply Hno, Hq. reflexivity.
  - split; [|reflexivity]. intros Hyes. apply Hq in Hyes. discriminate.
Qed.

Lemma X5_has_perm_short_circuit_witness :
  has_perm staff "X" office_db = (true, [AdminPermission])
  /\ has_perm_queries office_db staff "D"
     = [AdminPermission; DeveloperPermission].
Proof.
  split.
  - apply (X5_has_perm_short_circuit office_db staff "X"); [reflexivity|].
    apply grant_query_exists. reflexivity.
  - apply (X5_has_perm_short_circuit office_db staff "D"); [reflexivity|].
    intros H. apply grant_query_exists in H. discriminate H.
Defined.

(** X6: adding rows never takes a permission away: what [has_perm] grants
    on a store it grants on every store that includes it. *)
Theorem X6_has_perm_monotone (db db' : DB) (actor : Admin) (P : string) :
  db_included db db' ->
  has_perm_value db actor P = true ->
  has_perm_value db' actor P = true.
Proof.
  intros Hinc Hp.
  destruct (truthy (is_active (fields actor))
            && truthy (is_superuser (fields actor))) eqn:Hb.
  - unfold has_perm_value, has_perm. rewrite Hb. reflexivity.
  - apply has_perm_value_unfold in Hp; [|exact Hb].
    apply has_perm_value_of_grant.
    destruct Hp as [H|H]; [left|right];
      apply (grant_matching_included db db'); assumption.
Qed.

Lemma X6_has_perm_monotone_witness :
  has_perm_value office_db staff "D" = true.
Proof.
  apply (X6_has_perm_monotone sample_db office_db staff "D");
    [|reflexivity].
  intros m. destruct m; simpl; repeat split; intros x Hx;
    repeat (apply elem_of_cons in Hx as [-> | Hx]);
    try (apply elem_of_nil in Hx; contradiction); repeat constructor.
Defined.

(** X7: every permission [get_all_permissions] lists is one [has_perm]
    grants, for every actor. *)
Theorem X7_get_all_permissions_sound
  (db : DB) (actor : Admin) (p : Permission) :
  p ∈ rows (get_all_permissions actor) db ->
  has_perm_value db actor (codename p) = true.
Proof.
  intros Hp. apply elem_of_get_all_permissions in Hp.
  apply has_perm_value_of_grant. left. exists p. split; [reflexivity|exact Hp].
Qed.

Lemma X7_get_all_permissions_sound_witness :
  has_perm_value office_db staff "Y" = true.
Proof.
  apply (X7_get_all_permissions_sound office_db staff
           {| perm_pk := 6; codename := "Y" |}).
  apply elem_of_get_all_permissions. right.
  split; [simpl; repeat constructor|].
  exists {| group_pk := 4; group_name := "ops" |}. simpl.
  repeat split; repeat constructor.
Defined.

(** X8: the converse fails by construction: a codename the actor holds in
    the developer taxonomy only is granted by [has_perm] and is the
    codename of no permission [get_all_permissions] lists. *)
Theorem X8_developer_grant_not_listed (db : DB) (actor : Admin) (D : string) :
  grant_matching db Developer actor D ->
  ~ grant_matching db Standard actor D ->
  has_perm_value db actor D = true
  /\ forall p : Permission,
       p ∈ rows (get_all_permissions actor) db -> codename p <> D.
Proof.
  intros Hdev Hstd. split.
  - apply has_perm_value_of_grant. right. exact Hdev.
  - intros p Hp Hc. apply elem_of_get_all_permissions in Hp.
    apply Hstd. exists p. split; assumption.
Qed.

Lemma X8_developer_grant_not_listed_witness :
  has_perm_value office_db staff "D" = true
  /\ forall p : Permission,
       p ∈ rows (get_all_permissions staff) office_db -> codename p <> "D".
Proof.
  apply (X8_developer_grant_not_listed office_db staff "D").
  - apply grant_query_exists. reflexivity.
  - intros H. apply grant_query_exists in H. discriminate H.
Defined.

(** X9: [permissions_codename] runs two queries, on the standard and then
    on the developer permissions, and lists exactly the codenames of the
    permissions granted to the actor directly, in either taxonomy. *)
Theorem X9_permissions_codename_direct_grants
  (db : DB) (actor : Admin) (c : string) :
  snd (permissions_codename actor db) = [AdminPermission; DeveloperPermission]
  /\ (c ∈ fst (permissions_codename actor db)
      <-> exists p : Permission,
            codename p = c
            /\ (direct_grant db Standard actor p
                \/ direct_grant db Developer actor p)).
Proof.
  split; [reflexivity|].
  unfold permissions_codename, qbind, values_list_codename, qret,
    user_permissions, developer_permissions. simpl.
  rewrite elem_of_app, !list_elem_of_fmap.
  split.
  - intros [[p [-> Hp]]|[p [-> Hp]]]; exists p; (split; [reflexivity|]).
    + left. apply (elem_of_direct_rows db Standard). exact Hp.
    + right. apply (elem_of_direct_rows db Developer). exact Hp.
  - intros [p [<- [H|H]]]; [left|right]; exists p; (split; [reflexivity|]).
    + apply (elem_of_direct_rows db Standard). exact H.
    + apply (elem_of_direct_rows db Developer). exact H.
Qed.

(** X10: every codename [permissions_codename] lists is granted by
    [has_perm]; a codename the actor holds through a group only is granted
    by [has_perm] and is not listed. *)
Theorem X10_permissions_codename_omits_groups
  (db : DB) (actor : Admin) (c : string) :
  (c ∈ fst (permissions_codename actor db) ->
   has_perm_value db actor c = true)
  /\ ((exists p : Permission,
         codename p = c
         /\ (group_grant db Standard actor p
             \/ group_grant db Developer actor p)) ->
      (forall (t : Taxonomy) (p : Permission),
         codename p = c -> ~ direct_grant db t actor p) ->
      has_perm_value db actor c = true
      /\ c ∉ fst (permissions_codename actor db)).
Proof.
  split.
  - intros Hc.
    unfold permissions_codename, qbind, values_list_codename, qret,
      user_permissions, developer_permissions in Hc. simpl in Hc.
    rewrite elem_of_app, !list_elem_of_fmap in Hc.
    apply has_perm_value_of_grant.
    destruct Hc as [[p [-> Hp]]|[p [-> Hp]]]; [left|right]; exists p;
      (split; [reflexivity|]); left.
    + apply (elem_of_direct_rows db Standard). exact Hp.
    + apply (elem_of_direct_rows db Developer). exact Hp.
  - intros [p [Hc Hg]] Hnodirect. split.
    + apply has_perm_value_of_grant.
      destruct Hg as [Hg|Hg]; [left|right]; exists p; auto.
    + intros Hin.
      unfold permissions_codename, qbind, values_list_codename, qret,
        user_permissions, developer_permissions in Hin. simpl in Hin.
      rewrite elem_of_app, !list_elem_of_fmap in Hin.
      destruct Hin as [[q [Hq Hrow]]|[q [Hq Hrow]]].
      * apply (Hnodirect Standard q); [congruence|].
        apply (elem_of_direct_rows db Standard). exact Hrow.
      * apply (Hnodirect Developer q); [congruence|].
        apply (elem_of_direct_rows db Developer). exact Hrow.
Qed.

Lemma X10_permissions_codename_omits_groups_witness :
  has_perm_value office_db staff "E" = true
  /\ (has_perm_value office_db staff "Y" = true
      /\ "Y" ∉ fst (permissions_codename staff office_db)).
Proof.
  split.
  - apply (proj1 (X10_permissions_codename_omits_groups office_db staff "E")).
    change (fst (permissions_codename staff office_db)) with ["X"; "E"].
    repeat constructor.
  - apply (proj2 (X10_permissions_codename_omits_groups office_db staff "Y")).
    + exists {| perm_pk := 6; codename := "Y" |}. split; [reflexivity|].
      left. split; [simpl; repeat constructor|].
      exists {| group_pk := 4; group_name := "ops" |}. simpl.
      repeat split; repeat constructor.
    + intros t p Hc Hd. apply (elem_of_direct_rows office_db t) in Hd.
      destruct t; apply list_elem_of_singleton in Hd; subst p;
        discriminate Hc.
Defined.

(** X17: each of the four ways to hold a permission is enough for
    [has_perm], for every actor, active or not: a direct grant or a grant
    to one of the actor's groups, in the standard or in the developer
    taxonomy. *)
Theorem X17_any_grant_suffices
  (db : DB) (t : Taxonomy) (actor : Admin) (p : Permission) :
  direct_grant db t actor p \/ group_grant db t actor p ->
  has_perm_value db actor (codename p) = true.
Proof.
  intros Hg. apply has_perm_value_of_grant.
  destruct t; [left|right]; exists p; (split; [reflexivity | exact Hg]).
Qed.

Lemma X17_any_grant_suffices_witness :
  has_perm_value office_db staff "X" = true.
Proof.
  apply (X17_any_grant_suffices office_db Standard staff
           {| perm_pk := 5; codename := "X" |}).
  left. split; simpl; repeat constructor.
Defined.

(** Runs of [permissions_codename] on the sample store. *)
Example permissions_codename_staff :
  permissions_codename staff office_db
  = (["X"; "E"], [AdminPermission; DeveloperPermission]).
Proof. reflexivity. Qed.

End PermissionListings.

(** ** What the manager stores *)

Section ManagerRecords.
Import Administrator.

Context (normalize_email normalize_username make_password : PyVal -> PyVal).
Context (Admin_init : PyVal -> PyVal -> PyVal -> gmap string PyVal
                      -> Res AdminInstance).
Context (save : AdminInstance -> DB -> Res N * DB).

Lemma lookup_setdefault (k : string) (v : PyVal) (d : gmap string PyVal) :
  setdefault k v d !! k = Some (default v (d !! k)).
Proof.
  unfold setdefault. destruct (d !! k) as [w|] eqn:E; simpl.
  - exact E.
  - apply lookup_insert_eq.
Qed.


(** X11: [create_user] makes a plain administrator unless the caller says
    otherwise: the constructor giving the instance the value passed for
    [is_superuser], the returned instance has the [is_superuser] that was
    passed to [create_user], unchecked, and [False] when none was. *)
Theorem X11_create_user_superuser_flag
  (username email password phone : PyVal)
  (extra_fields : gmap string PyVal) (db db' : DB) (user : Admin) :
  stores_is_superuser Admin_init ->
  create_user normalize_email normalize_username make_password
    Admin_init save username email password phone extra_fields db
  = (Ok user, db') ->
  is_superuser (fields user)
  = default (PyBool false) (extra_fields !! "is_superuser").
Proof.
  unfold create_user. intros Hctor H.
  apply (create_admin_user_is_superuser _ _ _ _ _ _ _ _ _
           (default (PyBool false) (extra_fields !! "is_superuser")))
    in H; [exact H | exact Hctor | apply lookup_setdefault].
Qed.

(** X12: with [is_superuser=True] among the keyword arguments,
    [create_superuser] and [create_user] are the same call. *)
Theorem X12_create_superuser_is_create_user
  (username email password phone : PyVal)
  (extra_fields : gmap string PyVal) (db : DB) :
  extra_fields !! "is_superuser" = Some (PyBool true) ->
  create_superuser normalize_email normalize_username make_password
    Admin_init save username email password phone extra_fields db
  = create_user normalize_email normalize_username make_password
      Admin_init save username email password phone extra_fields db.
Proof.
  intros H. unfold create_superuser, create_user.
  rewrite !(setdefault_present _ _ (PyBool true)) by exact H.
  rewrite H. reflexivity.
Qed.


(** X14: the constructor giving the instance the value passed for
    [is_superuser], a superuser that [create_superuser] returned and that
    is active passes every permission check, on every store, without a
    query. *)
Theorem X14_created_superuser_passes
  (username email password phone : PyVal)
  (extra_fields : gmap string PyVal) (db db' : DB) (user : Admin) :
  stores_is_superuser Admin_init ->
  create_superuser normalize_email normalize_username make_password
    Admin_init save username email password phone extra_fields db
  = (Ok user, db') ->
  truthy (is_active (fields user)) = true ->
  forall (store : DB) (P : string), has_perm user P store = (true, []).
Proof.
  intros Hctor H Hact store P. unfold create_superuser in H.
  destruct (is_True (setdefault "is_superuser" (PyBool true) extra_fields
                     !! "is_superuser")) eqn:E; simpl in H; [|discriminate].
  apply is_True_Some in E.
  apply (create_admin_user_is_superuser _ _ _ _ _ _ _ _ _ (PyBool true)) in H;
    [|exact Hctor|exact E].
  unfold has_perm. rewrite Hact, H. reflexivity.
Qed.

(** X15: the constructor giving the instance the value passed for
    [is_superuser], an administrator that [create_user] returned for a
    call without [is_superuser] holds no permission on a store whose
    grant and membership tables do not mention its primary key. *)
Theorem X15_created_user_starts_without_permissions
  (username email password phone : PyVal)
  (extra_fields : gmap string PyVal) (db db' : DB) (user : Admin) :
  stores_is_superuser Admin_init ->
  create_user normalize_email normalize_username make_password
    Admin_init save username email password phone extra_fields db
  = (Ok user, db') ->
  extra_fields !! "is_superuser" = None ->
  forall store : DB,
    (forall (m : PermissionModel) (x : N),
       ((pk user, x) ∉ direct_through m store)
       /\ ((pk user, x) ∉ membership_through m store)) ->
    forall P : string, has_perm_value store user P = false.
Proof.
  intros Hctor H Hnone store Hfresh P.
  unfold create_user in H.
  apply (create_admin_user_is_superuser _ _ _ _ _ _ _ _ _ (PyBool false))
    in H; [|exact Hctor|rewrite lookup_setdefault, Hnone; reflexivity].
  assert (Hns : truthy (is_active (fields user))
                && truthy (is_superuser (fields user)) = false).
  { rewrite H. apply andb_false_r. }
  destruct (has_perm_value store user P) eqn:E; [|reflexivity].
  exfalso. apply has_perm_value_unfold in E; [|exact Hns].
  assert (Hno : forall t, ~ grant_matching store t user P).
  { intros t [p [_ [[_ Hd]|[_ [g [_ [Hm _]]]]]]].
    - exact (proj1 (Hfresh (model_of t) (perm_pk p)) Hd).
    - exact (proj2 (Hfresh (model_of t) (group_pk g)) Hm). }
  destruct E as [E|E]; exact (Hno _ E).
Qed.

End ManagerRecords.

Section ManagerRecordRuns.
Import Administrator.

Lemma X11_create_user_superuser_flag_witness :
  exists (user : Admin) (db' : DB),
    create_user (fun v => v) (fun v => v) (fun v => v) Admin_init_declared
      insert_admin (PyStr "staff") PyNone (PyStr "pw") PyNone
      {[ "is_superuser" := PyBool true ]} empty_db
    = (Ok user, db')
    /\ is_superuser (fields user) = PyBool true.
Proof.
  pose (f := {| username := PyStr "staff"; email := PyNone;
                phone := PyNone; password := PyStr "pw";
                is_active := PyBool true; is_superuser := PyBool true;
                avatar := PyNone; country := PyNone |}).
  exists {| pk := 1; fields := f |}, (put_admin 1 f empty_db).
  assert (Hrun : create_user (fun v => v) (fun v => v) (fun v => v)
                   Admin_init_declared insert_admin (PyStr "staff") PyNone
                   (PyStr "pw") PyNone
                   {[ "is_superuser" := PyBool true ]} empty_db
                 = (Ok {| pk := 1; fields := f |}, put_admin 1 f empty_db)).
  { vm_compute. reflexivity. }
  split; [exact Hrun|].
  rewrite (X11_create_user_superuser_flag (fun v => v) (fun v => v)
             (fun v => v) Admin_init_declared insert_admin (PyStr "staff")
             PyNone (PyStr "pw") PyNone
             {[ "is_superuser" := PyBool true ]} empty_db _ _
             Admin_init_declared_stores_is_superuser Hrun).
  rewrite lookup_singleton_eq. reflexivity.
Defined.

Lemma X12_create_superuser_is_create_user_witness :
  create_superuser (fun v => v) (fun v => v) (fun v => v)
    Admin_init_declared insert_admin
    (PyStr "root") PyNone PyNone PyNone
    {[ "is_superuser" := PyBool true ]} empty_db
  = create_user (fun v => v) (fun v => v) (fun v => v)
      Admin_init_declared insert_admin
      (PyStr "root") PyNone PyNone PyNone
      {[ "is_superuser" := PyBool true ]} empty_db.
Proof.
  apply (X12_create_superuser_is_create_user (fun v => v) (fun v => v)
           (fun v => v) Admin_init_declared insert_admin).
  apply lookup_singleton_eq.
Defined.


Lemma X14_created_superuser_passes_witness :
  has_perm {| pk := 1;
              fields := {| username := PyStr "root"; email := PyNone;
                           phone := PyNone; password := PyNone;
                           is_active := PyBool true;
                           is_superuser := PyBool true;
                           avatar := PyNone; country := PyNone |} |}
    "Z" office_db
  = (true, []).
Proof.
  refine (X14_created_superuser_passes (fun v => v) (fun v => v)
           (fun v => v) Admin_init_declared insert_admin
           (PyStr "root") PyNone PyNone PyNone ∅ empty_db
           (put_admin 1
              {| username := PyStr "root"; email := PyNone;
                 phone := PyNone; password := PyNone;
                 is_active := PyBool true;
                 is_superuser := PyBool true;
                 avatar := PyNone; country := PyNone |} empty_db)
           _ Admin_init_declared_stores_is_superuser _ _ office_db "Z");
    [vm_compute; reflexivity | reflexivity].
Defined.

Lemma X15_created_user_starts_without_permissions_witness :
  has_perm_value
    (snd (create_user (fun v => v) (fun v => v) (fun v => v)
            Admin_init_declared insert_admin
            (PyStr "staff") PyNone PyNone PyNone ∅ empty_db))
    {| pk := 1;
       fields := {| username := PyStr "staff"; email := PyNone;
                    phone := PyNone; password := PyNone;
                    is_active := PyBool true;
                    is_superuser := PyBool false;
                    avatar := PyNone; country := PyNone |} |}
    "X"
  = false.
Proof.
  refine (X15_created_user_starts_without_permissions (fun v => v)
            (fun v => v) (fun v => v) Admin_init_declared insert_admin
            (PyStr "staff") PyNone PyNone PyNone ∅ empty_db
            (snd (create_user (fun v => v) (fun v => v) (fun v => v)
                    Admin_init_declared insert_admin
                    (PyStr "staff") PyNone PyNone PyNone ∅ empty_db))
            _ Admin_init_declared_stores_is_superuser _ _ _ _ "X").
  - vm_compute. reflexivity.
  - apply lookup_empty.
  - intros m x. destruct m; split; apply not_elem_of_nil.
Defined.

End ManagerRecordRuns.

(** ** The reason of a block *)

Section BlockReasonLengths.
Import Administrator.BlockReason.

(** [clean] on [reason], case by case. *)
Lemma clean_reason_cases (value : string) :
  clean reason value
  = if String.eqb value "" then inl ["blank"]
    else if (String.length value <? 3)%nat then inl ["min_length"]
    else if (255 <? String.length value)%nat then inl ["max_length"]
    else inr value.
Proof.
  unfold clean, run_validators, field_validators, reason,
    MinLengthValidator, MaxLengthValidator.
  destruct (String.eqb value ""); [reflexivity|].
  cbn -[Nat.ltb String.length].
  destruct (Nat.ltb_spec (String.length value) 3) as [Hmin|Hmin];
    destruct (Nat.ltb_spec 255 (String.length value)) as [Hmax|Hmax];
    try lia; reflexivity.
Qed.

(** X16: validation of [BlockReason.reason] accepts exactly the strings of
    3 to 255 characters and returns them unchanged; every other string
    gets one error: [blank] for the empty string, on which the length
    validators do not run, [min_length] below 3 characters, [max_length]
    above 255. *)
Theorem X16_reason_length_window (value : string) :
  (clean reason value = inr value
   <-> (3 <= String.length value <= 255)%nat)
  /\ (forall errors : list string,
        clean reason value = inl errors ->
        errors = ["blank"] /\ value = ""
        \/ errors = ["min_length"] /\ (0 < String.length value < 3)%nat
        \/ errors = ["max_length"] /\ (255 < String.length value)%nat).
Proof.
  rewrite clean_reason_cases.
  destruct (String.eqb_spec value "") as [->|Hne].
  - split; [split; [discriminate | simpl; lia]|].
    intros errors [= <-]. left. auto.
  - assert (Hpos : (0 < String.length value)%nat).
    { destruct value; [congruence | simpl; lia]. }
    destruct (Nat.ltb_spec (String.length value) 3) as [Hmin|Hmin].
    + split; [split; [discriminate | lia]|].
      intros errors [= <-]. right. left. auto.
    + destruct (Nat.ltb_spec 255 (String.length value)) as [Hmax|Hmax].
      * split; [split; [discriminate | lia]|].
        intros errors [= <-]. right. right. auto.
      * split; [split; [intros _; lia | reflexivity]|]. discriminate.
Qed.

Lemma X16_reason_length_window_witness :
  clean reason "spam" = inr "spam"
  /\ (clean reason "ok" = inl ["min_length"] ->
      ["min_length"] = ["blank"] /\ "ok" = ""
      \/ ["min_length"] = ["min_length"] /\ (0 < String.length "ok" < 3)%nat
      \/ ["min_length"] = ["max_length"] /\ (255 < String.length "ok")%nat).
Proof.
  split.
  - apply (proj1 (X16_reason_length_window "spam")). simpl. lia.
  - apply (proj2 (X16_reason_length_window "ok")).
Defined.

End BlockReasonLengths.
